(** * linux_c_cpp: an executable linked against a shared and a static greeter

    Shallow embedding of [src/main.cc], [include/hello_shared.h] and
    [include/hello_static.h].  The program is straight-line code that writes
    to [std::cout]; it is embedded in ExtLib's state monad.

    Modelling conventions.
    - A [std::ostream] is a pair of byte strings: what has already reached
      the file descriptor ([sink]) and what still sits in the stream buffer
      ([buffer]).  [written] is their concatenation: every byte the program
      has inserted so far, in order.  Device failures (a closed or full
      standard output) are not modelled.  Neither are the error state and
      the formatting state of a stream ([failbit], [width], [fill]): they
      are as at program start throughout, so an [IO] computation stands
      for code that leaves them as it found them, which is what the
      spec's greeter contract asks of a [sayHello] body.
    - A [World] is what the process and its environment can observe: the
      arguments and environment variables it was started with and the two
      standard output streams.  [IO] is the state monad over it.
    - A [Machine] pairs the world with [calls], a history of the
      source-level operations that ran (constructor calls, [sayHello]
      calls, [operator<<] and [std::endl] on [std::cout]).  The history is
      ghost state: no operation reads it and no [IO] computation can touch
      it.  [M] is the state monad over machines.
    - The two headers declare [sayHello] and leave its body to the library
      sources.  A body is an [IO unit]; [main] takes the two bodies as
      parameters.
    - [main] returns its [int] as a [Z].
    - [MayDiverge] is [main] once more, over bodies that may fail to
      return; it is what termination is stated on. *)

From Stdlib Require Import String Ascii List ZArith Bool Lia.
From ExtLib Require Import Structures.Monad Structures.MonadState.
From ExtLib Require Import Data.Monads.StateMonad Data.Monads.OptionMonad.
Import ListNotations.
Import MonadNotation.
Local Open Scope string_scope.
Local Open Scope monad_scope.

(** ** Byte strings and lines *)

(** The line feed character, ['\n']. *)
Definition LF : ascii := "010"%char.

Definition newline : string := String LF EmptyString.

(** [no_newline s]: the text [s] fits on one line. *)
Fixpoint no_newline (s : string) : bool :=
  match s with
  | EmptyString => true
  | String c s' => negb (Ascii.eqb c LF) && no_newline s'
  end.

(** [lines_from cur s]: the lines of [s], where [cur] is the part of the
    current line already read.  A line is ended by [LF]; text after the last
    [LF] counts as a further (unterminated) line. *)
Fixpoint lines_from (cur s : string) : list string :=
  match s with
  | EmptyString =>
      match cur with
      | EmptyString => []
      | _ => [cur]
      end
  | String c s' =>
      if Ascii.eqb c LF then cur :: lines_from "" s'
      else lines_from (cur ++ String c "") s'
  end.

Definition lines (s : string) : list string := lines_from "" s.

(** ** Output streams *)

Module Ostream.

Record t : Type := mk { sink : string; buffer : string }.

Definition empty : t := {| sink := ""; buffer := "" |}.

(** Inserting characters appends them to the buffer. *)
Definition write (s : string) (o : t) : t :=
  {| sink := sink o; buffer := buffer o ++ s |}.

(** [os.flush()]: the buffer goes to the device. *)
Definition flush (o : t) : t :=
  {| sink := sink o ++ buffer o; buffer := "" |}.

(** Every byte inserted so far. *)
Definition written (o : t) : string := sink o ++ buffer o.

End Ostream.

(** ** The world *)

(** What the process was started with.  [int main()] takes no parameters
    and [main] reads no environment variable. *)
Record environment : Type := mkEnvironment {
  argv : list string;
  envp : list (string * string)
}.

Record World : Type := mkWorld {
  environ : environment;
  cout : Ostream.t;
  cerr : Ostream.t
}.

Abbreviation IO := (state World).

Definition on_cout (f : Ostream.t -> Ostream.t) : IO unit :=
  w <- get ;;
  put {| environ := environ w; cout := f (cout w); cerr := cerr w |}.

(** ** <iostream> *)

(** [std::cout << s] for a character string [s], on a stream in its
    default state (good, width 0). *)
Definition insert (s : string) : IO unit := on_cout (Ostream.write s).

(** [std::cout << std::endl] on a stream in its default state: put a
    newline, then flush. *)
Definition endl : IO unit :=
  on_cout (Ostream.write newline) ;;
  on_cout Ostream.flush.

(** ** The instrumented machine *)

Inductive class_id : Type := CHelloShared | CHelloStatic.

Inductive event : Type :=
| EvConstruct (c : class_id)   (* a default constructor ran *)
| EvSayHello (c : class_id)    (* [sayHello] was entered *)
| EvInsert (s : string)        (* [std::cout << s] *)
| EvEndl.                      (* [std::cout << std::endl] *)

Record Machine : Type := mkMachine {
  world : World;
  calls : list event
}.

Abbreviation M := (state Machine).

Definition log (e : event) : M unit :=
  m <- get ;;
  put {| world := world m; calls := calls m ++ [e] |}.

(** Run an [IO] computation on the machine's world. *)
Definition perform {A : Type} (c : IO A) : M A :=
  m <- get ;;
  let (a, w') := runState c (world m) in
  put {| world := w'; calls := calls m |} ;;
  ret a.

Definition cout_insert (s : string) : M unit :=
  log (EvInsert s) ;;
  perform (insert s).

Definition cout_endl : M unit :=
  log EvEndl ;;
  perform endl.

(** ** The greeters *)

(** [class HelloShared]: no data members; [HelloShared() = default;
    auto sayHello() -> void;]. *)
Module HelloShared.

Record t : Set := mk {}.

(** [HelloShared() = default]. *)
Definition ctor : M t :=
  log (EvConstruct CHelloShared) ;;
  ret mk.

(** [auto sayHello() -> void], over its body. *)
Definition sayHello (body : IO unit) (this : t) : M unit :=
  log (EvSayHello CHelloShared) ;;
  perform body.

End HelloShared.

(** [class HelloStatic]: no data members; [HelloStatic() = default;
    auto sayHello() -> void; ~HelloStatic() = default;].  The destructor is
    the defaulted one of a class without members or bases: it does nothing,
    like the implicit one of [HelloShared]. *)
Module HelloStatic.

Record t : Set := mk {}.

(** [HelloStatic() = default]. *)
Definition ctor : M t :=
  log (EvConstruct CHelloStatic) ;;
  ret mk.

(** [auto sayHello() -> void], over its body. *)
Definition sayHello (body : IO unit) (this : t) : M unit :=
  log (EvSayHello CHelloStatic) ;;
  perform body.

End HelloStatic.

(** Modelled from the spec: the bodies of [HelloShared::sayHello] and
    [HelloStatic::sayHello] (the library sources that the two headers
    declare them for) are missing.  The spec gives each as an operation
    "taking no arguments and returning no value, whose only observable side
    effect is writing a fixed human-readable greeting to the standard output
    stream", and calls what it emits a line.  The fixed text is a parameter
    ([text]); whether the body ends the line with [std::endl] or with a
    plain newline character is not said, so that is a parameter too
    ([flushes]). *)
Record greeting : Type := mkGreeting {
  text : string;
  flushes : bool
}.

(** The line a greeting puts on the stream. *)
Definition greeting_line (g : greeting) : string := text g ++ newline.

(** Modelled from the spec: the missing body of a greeter's [sayHello],
    which writes the fixed greeting line to standard output. *)
Definition greet (g : greeting) : IO unit :=
  insert (greeting_line g) ;;
  if flushes g then on_cout Ostream.flush else ret tt.

(** ** The class declarations

    The public members the two headers declare, as data. *)

Inductive ctype : Type := TVoid | TInt.

Inductive special_member : Type := DefaultedCtor | DefaultedDtor.

Record method_decl : Type := mkMethod {
  method_name : string;
  method_params : list ctype;
  method_result : ctype
}.

Record class_decl : Type := mkClass {
  class_name : string;
  special_members : list special_member;
  methods : list method_decl;
  data_members : list (string * ctype)
}.

(** [include/hello_shared.h]. *)
Definition HelloShared_decl : class_decl :=
  {| class_name := "HelloShared";
     special_members := [DefaultedCtor];
     methods := [mkMethod "sayHello" [] TVoid];
     data_members := [] |}.

(** [include/hello_static.h]. *)
Definition HelloStatic_decl : class_decl :=
  {| class_name := "HelloStatic";
     special_members := [DefaultedCtor; DefaultedDtor];
     methods := [mkMethod "sayHello" [] TVoid];
     data_members := [] |}.

(** A greeter object of either class. *)
Inductive object : Type :=
| OShared (o : HelloShared.t)
| OStatic (o : HelloStatic.t).

(** Default-construct an object of class [c]. *)
Definition construct (c : class_id) : M object :=
  match c with
  | CHelloShared => o <- HelloShared.ctor ;; ret (OShared o)
  | CHelloStatic => o <- HelloStatic.ctor ;; ret (OStatic o)
  end.

(** Default-construct one object per entry of [cs], in order. *)
Fixpoint construct_all (cs : list class_id) : M (list object) :=
  match cs with
  | [] => ret []
  | c :: cs' =>
      o <- construct c ;;
      os <- construct_all cs' ;;
      ret (o :: os)
  end.

(** ** The entry point *)

Definition executable_message : string := "Hello, World from executable!".

(** The machine a process starts in: nothing written yet. *)
Definition fresh_world (env : environment) : World :=
  {| environ := env; cout := Ostream.empty; cerr := Ostream.empty |}.

Definition startup (env : environment) : Machine :=
  {| world := fresh_world env; calls := [] |}.

(** The status the parent sees: the low eight bits of [main]'s result. *)
Definition exit_status (r : Z) : Z := Z.land r 255.

Record outcome : Type := mkOutcome {
  status : Z;
  stdout : string;
  stderr : string
}.

Section Program.

(** The bodies of the two [sayHello] operations. *)
Variable shared_body : IO unit.
Variable static_body : IO unit.

(** [int main()] of [src/main.cc]. *)
Definition main : M Z :=
  shared_lib <- HelloShared.ctor ;;
  static_lib <- HelloStatic.ctor ;;
  HelloShared.sayHello shared_body shared_lib ;;
  HelloStatic.sayHello static_body static_lib ;;
  cout_insert executable_message ;;
  cout_endl ;;
  ret 0%Z.

(** A run of the program: start, [main], then [exit], which flushes
    the standard streams. *)
Definition run_program (env : environment) : outcome :=
  let (r, m) := runState main (startup env) in
  {| status := exit_status r;
     stdout := Ostream.sink (Ostream.flush (cout (world m)));
     stderr := Ostream.sink (Ostream.flush (cerr (world m))) |}.

End Program.

(** The program with the greeters' bodies as the spec gives them. *)
Definition hello_program (sg tg : greeting) : environment -> outcome :=
  run_program (greet sg) (greet tg).

(** ** Reading off a run *)

Definition no_environment : environment := mkEnvironment [] [].

(** The bytes an [IO] computation adds to standard output when it runs on
    its own in a fresh process. *)
Definition emitted {A : Type} (c : IO A) : string :=
  Ostream.written (cout (execState c (fresh_world no_environment))).

(** The stream after a greeting has been written to it. *)
Definition emit (g : greeting) (o : Ostream.t) : Ostream.t :=
  let o' := Ostream.write (greeting_line g) o in
  if flushes g then Ostream.flush o' else o'.

(** The world after [main], from the one before it. *)
Definition main_world (shared_body static_body : IO unit) (w : World) : World :=
  execState endl
    (execState (insert executable_message)
       (execState static_body (execState shared_body w))).

(** The operations of [main], in program order. *)
Definition main_calls : list event :=
  [EvConstruct CHelloShared; EvConstruct CHelloStatic;
   EvSayHello CHelloShared; EvSayHello CHelloStatic;
   EvInsert executable_message; EvEndl].

Definition is_construct (e : event) : bool :=
  match e with EvConstruct _ => true | _ => false end.

Definition is_sayHello (e : event) : bool :=
  match e with EvSayHello _ => true | _ => false end.

Definition is_print (e : event) : bool :=
  match e with EvInsert _ => true | _ => false end.

Definition count (p : event -> bool) (tr : list event) : nat :=
  List.length (List.filter p tr).

(** The contract of a greeter class with constructor [ctor] and operation
    [hello]: construction changes nothing in the world, and the operation
    returns no value and only appends the fixed [line] to standard output,
    whatever the instance and the state it is invoked in. *)
Record greeter_contract {T : Type} (ctor : M T) (hello : T -> M unit)
    (line : string) : Prop := mkContract {
  ctor_silent : forall m, world (execState ctor m) = world m;
  hello_appends : forall this m,
    Ostream.written (cout (world (execState (hello this) m)))
    = Ostream.written (cout (world m)) ++ line;
  hello_frame : forall this m,
    environ (world (execState (hello this) m)) = environ (world m)
    /\ cerr (world (execState (hello this) m)) = cerr (world m)
}.

(** Sample greetings, for concrete runs. *)
Definition sample_shared : greeting :=
  {| text := "Hello, World from shared library!"; flushes := true |}.

Definition sample_static : greeting :=
  {| text := "Hello, World from static library!"; flushes := false |}.

(** [appends body s]: from every world, [body] leaves on standard output
    what was written before it, followed by [s]. *)
Definition appends (body : IO unit) (s : string) : Prop :=
  forall w,
    Ostream.written (cout (execState body w)) = Ostream.written (cout w) ++ s.

(** ** Bodies that may not return

    A [sayHello] body that loops forever, throws or calls [exit] never
    hands control back to [main].  Such a body is a partial function on
    worlds, and [main] over such bodies lives in the state monad over
    [option]: [None] is a run that does not reach the end of [main]. *)

Definition partial_body : Type := World -> option World.

(** A body that returns from every world. *)
Definition returning (body : IO unit) : partial_body :=
  fun w => Some (execState body w).

#[local] Existing Instance Monad_stateT.

Module MayDiverge.

Abbreviation P := (stateT Machine option).

(** An operation that always returns. *)
Definition total {A : Type} (c : M A) : P A :=
  mkStateT (fun m => Some (runState c m)).

(** Run a body on the machine's world, if it returns. *)
Definition perform (body : partial_body) : P unit :=
  mkStateT (fun m =>
    match body (world m) with
    | Some w' => Some (tt, {| world := w'; calls := calls m |})
    | None => None
    end).

(** [HelloShared::sayHello], over its body. *)
Definition shared_sayHello (body : partial_body) (this : HelloShared.t)
    : P unit :=
  total (log (EvSayHello CHelloShared)) ;;
  perform body.

(** [HelloStatic::sayHello], over its body. *)
Definition static_sayHello (body : partial_body) (this : HelloStatic.t)
    : P unit :=
  total (log (EvSayHello CHelloStatic)) ;;
  perform body.

(** [int main()] of [src/main.cc]. *)
Definition main (shared_body static_body : partial_body) : P Z :=
  shared_lib <- total HelloShared.ctor ;;
  static_lib <- total HelloStatic.ctor ;;
  shared_sayHello shared_body shared_lib ;;
  static_sayHello static_body static_lib ;;
  total (cout_insert executable_message) ;;
  total cout_endl ;;
  ret 0%Z.

End MayDiverge.

(** * Properties *)

(** ** Strings *)

Lemma append_assoc (a b c : string) : (a ++ b) ++ c = a ++ (b ++ c).
Proof.
  induction a as [|x a IH]; simpl; [reflexivity|].
  now rewrite IH.
Qed.

Lemma append_nil_r (a : string) : a ++ "" = a.
Proof.
  induction a as [|x a IH]; simpl; [reflexivity|].
  now rewrite IH.
Qed.

Lemma lines_from_line (t : string) :
  no_newline t = true ->
  forall cur rest,
    lines_from cur (t ++ newline ++ rest) = (cur ++ t) :: lines_from "" rest.
Proof.
  change (newline ++ ?r) with (String LF r).
  induction t as [|c t IH]; intros H cur rest.
  - simpl. now rewrite append_nil_r.
  - simpl in H. apply andb_true_iff in H. destruct H as [Hc Ht].
    apply negb_true_iff in Hc.
    change (lines_from cur (String c t ++ String LF rest))
      with (if Ascii.eqb c LF then cur :: lines_from "" (t ++ String LF rest)
            else lines_from (cur ++ String c "") (t ++ String LF rest)).
    rewrite Hc, (IH Ht), append_assoc. reflexivity.
Qed.

Lemma lines_one (a : string) :
  no_newline a = true -> lines (a ++ newline) = [a].
Proof.
  intros H. unfold lines.
  change newline with (newline ++ "").
  now rewrite (lines_from_line _ H).
Qed.

Lemma lines_three (a b c : string) :
  no_newline a = true -> no_newline b = true -> no_newline c = true ->
  lines (a ++ newline ++ b ++ newline ++ c ++ newline) = [a; b; c].
Proof.
  intros Ha Hb Hc. unfold lines.
  rewrite (lines_from_line _ Ha), (lines_from_line _ Hb).
  change newline with (newline ++ "").
  now rewrite (lines_from_line _ Hc).
Qed.

(** ** Streams *)

Lemma written_write s o :
  Ostream.written (Ostream.write s o) = Ostream.written o ++ s.
Proof.
  unfold Ostream.written, Ostream.write; simpl. now rewrite append_assoc.
Qed.

Lemma written_flush o : Ostream.written (Ostream.flush o) = Ostream.written o.
Proof.
  unfold Ostream.written, Ostream.flush; simpl. now rewrite append_nil_r.
Qed.

Lemma sink_flush o : Ostream.sink (Ostream.flush o) = Ostream.written o.
Proof. reflexivity. Qed.

Lemma written_emit g o :
  Ostream.written (emit g o) = Ostream.written o ++ greeting_line g.
Proof.
  unfold emit. destruct (flushes g).
  - now rewrite written_flush, written_write.
  - apply written_write.
Qed.

(** ** Running the operations *)

Lemma run_bind {S A B : Type} (c : state S A) (k : A -> state S B) s :
  runState (x <- c ;; k x) s
  = let (a, s') := runState c s in runState (k a) s'.
Proof. reflexivity. Qed.

Lemma exec_bind {S A B : Type} (c : state S A) (k : A -> state S B) s :
  execState (x <- c ;; k x) s
  = execState (k (evalState c s)) (execState c s).
Proof.
  unfold execState, evalState. rewrite run_bind.
  now destruct (runState c s).
Qed.

Lemma run_log e m :
  runState (log e) m = (tt, {| world := world m; calls := calls m ++ [e] |}).
Proof. reflexivity. Qed.

Lemma run_perform {A : Type} (c : IO A) m :
  runState (perform c) m
  = (evalState c (world m),
     {| world := execState c (world m); calls := calls m |}).
Proof.
  unfold perform, evalState, execState. cbn.
  now destruct (runState c (world m)).
Qed.

Lemma exec_insert s w :
  execState (insert s) w
  = {| environ := environ w; cout := Ostream.write s (cout w);
       cerr := cerr w |}.
Proof. reflexivity. Qed.

Lemma exec_endl w :
  execState endl w
  = {| environ := environ w;
       cout := Ostream.flush (Ostream.write newline (cout w));
       cerr := cerr w |}.
Proof. reflexivity. Qed.

Lemma exec_greet g w :
  execState (greet g) w
  = {| environ := environ w; cout := emit g (cout w); cerr := cerr w |}.
Proof. unfold greet, emit. now destruct (flushes g). Qed.

Lemma run_shared_ctor m :
  runState HelloShared.ctor m
  = (HelloShared.mk,
     {| world := world m;
        calls := calls m ++ [EvConstruct CHelloShared] |}).
Proof. reflexivity. Qed.

Lemma run_static_ctor m :
  runState HelloStatic.ctor m
  = (HelloStatic.mk,
     {| world := world m;
        calls := calls m ++ [EvConstruct CHelloStatic] |}).
Proof. reflexivity. Qed.

Lemma run_shared_sayHello body this m :
  runState (HelloShared.sayHello body this) m
  = (tt, {| world := execState body (world m);
            calls := calls m ++ [EvSayHello CHelloShared] |}).
Proof.
  unfold HelloShared.sayHello. rewrite run_bind, run_log, run_perform.
  cbn [world calls]. now destruct (evalState body (world m)).
Qed.

Lemma run_static_sayHello body this m :
  runState (HelloStatic.sayHello body this) m
  = (tt, {| world := execState body (world m);
            calls := calls m ++ [EvSayHello CHelloStatic] |}).
Proof.
  unfold HelloStatic.sayHello. rewrite run_bind, run_log, run_perform.
  cbn [world calls]. now destruct (evalState body (world m)).
Qed.

Lemma run_cout_insert s m :
  runState (cout_insert s) m
  = (tt, {| world := execState (insert s) (world m);
            calls := calls m ++ [EvInsert s] |}).
Proof. reflexivity. Qed.

Lemma run_cout_endl m :
  runState cout_endl m
  = (tt, {| world := execState endl (world m);
            calls := calls m ++ [EvEndl] |}).
Proof. reflexivity. Qed.

Lemma run_main shared_body static_body m :
  runState (main shared_body static_body) m
  = (0%Z, {| world := main_world shared_body static_body (world m);
             calls := calls m ++ main_calls |}).
Proof.
  unfold main.
  rewrite run_bind, run_shared_ctor.
  rewrite run_bind, run_static_ctor.
  rewrite run_bind, run_shared_sayHello.
  rewrite run_bind, run_static_sayHello.
  rewrite run_bind, run_cout_insert.
  rewrite run_bind, run_cout_endl.
  unfold main_world, main_calls; cbn [world calls].
  rewrite <- !app_assoc. reflexivity.
Qed.

Lemma exec_main shared_body static_body m :
  execState (main shared_body static_body) m
  = {| world := main_world shared_body static_body (world m);
       calls := calls m ++ main_calls |}.
Proof. unfold execState at 1. now rewrite run_main. Qed.

Lemma cout_main_world shared_body static_body w :
  cout (main_world shared_body static_body w)
  = Ostream.flush
      (Ostream.write newline
         (Ostream.write executable_message
            (cout (execState static_body (execState shared_body w))))).
Proof. reflexivity. Qed.

Lemma written_main_world sg tg w :
  Ostream.written (cout (main_world (greet sg) (greet tg) w))
  = Ostream.written (cout w) ++ greeting_line sg ++ greeting_line tg
      ++ executable_message ++ newline.
Proof.
  rewrite cout_main_world, !exec_greet. cbn [cout].
  rewrite written_flush, !written_write, !written_emit.
  now rewrite !append_assoc.
Qed.

Lemma cerr_main_world sg tg w :
  cerr (main_world (greet sg) (greet tg) w) = cerr w.
Proof.
  unfold main_world. rewrite exec_endl, exec_insert, !exec_greet.
  reflexivity.
Qed.

Lemma hello_program_outcome sg tg env :
  hello_program sg tg env
  = {| status := 0;
       stdout := greeting_line sg ++ greeting_line tg
                 ++ executable_message ++ newline;
       stderr := "" |}.
Proof.
  unfold hello_program, run_program. rewrite run_main. cbn [world startup].
  rewrite !sink_flush, written_main_world, cerr_main_world. reflexivity.
Qed.

Lemma emitted_greet g : emitted (greet g) = greeting_line g.
Proof.
  unfold emitted. rewrite exec_greet. cbn [cout].
  now rewrite written_emit.
Qed.

(** ** Construction *)

Lemma exec_construct c m :
  execState (construct c) m
  = {| world := world m; calls := calls m ++ [EvConstruct c] |}.
Proof. now destruct c. Qed.

Lemma exec_construct_all_cons c cs m :
  execState (construct_all (c :: cs)) m
  = execState (construct_all cs)
      {| world := world m; calls := calls m ++ [EvConstruct c] |}.
Proof.
  cbn [construct_all]. rewrite exec_bind, exec_construct, exec_bind.
  reflexivity.
Qed.

Lemma construct_all_world cs :
  forall m, world (execState (construct_all cs) m) = world m.
Proof.
  induction cs as [|c cs IH]; intros m; [reflexivity|].
  now rewrite exec_construct_all_cons, IH.
Qed.

Lemma construct_all_calls cs :
  forall m,
    calls (execState (construct_all cs) m)
    = (calls m ++ map EvConstruct cs)%list.
Proof.
  induction cs as [|c cs IH]; intros m.
  - cbn. now rewrite app_nil_r.
  - rewrite exec_construct_all_cons, IH. cbn. now rewrite <- app_assoc.
Qed.

Lemma construct_all_length cs :
  forall m, List.length (evalState (construct_all cs) m) = List.length cs.
Proof.
  induction cs as [|c cs IH]; intros m; [reflexivity|].
  cbn [construct_all]. unfold evalState in *. rewrite run_bind.
  destruct (runState (construct c) m) as [o m1]. cbv beta iota.
  rewrite run_bind. specialize (IH m1).
  destruct (runState (construct_all cs) m1) as [os m2].
  cbn in *. now rewrite IH.
Qed.

Lemma exec_shared_ctor m :
  execState HelloShared.ctor m
  = {| world := world m; calls := calls m ++ [EvConstruct CHelloShared] |}.
Proof. reflexivity. Qed.

Lemma exec_static_ctor m :
  execState HelloStatic.ctor m
  = {| world := world m; calls := calls m ++ [EvConstruct CHelloStatic] |}.
Proof. reflexivity. Qed.

Lemma exec_shared_sayHello body this m :
  execState (HelloShared.sayHello body this) m
  = {| world := execState body (world m);
       calls := calls m ++ [EvSayHello CHelloShared] |}.
Proof. unfold execState at 1. now rewrite run_shared_sayHello. Qed.

Lemma exec_static_sayHello body this m :
  execState (HelloStatic.sayHello body this) m
  = {| world := execState body (world m);
       calls := calls m ++ [EvSayHello CHelloStatic] |}.
Proof. unfold execState at 1. now rewrite run_static_sayHello. Qed.

(** ** Bodies that may not return *)

Lemma run_partial_main shared_body static_body m :
  runStateT (MayDiverge.main shared_body static_body) m
  = match shared_body (world m) with
    | None => None
    | Some w1 =>
        match static_body w1 with
        | None => None
        | Some w2 =>
            Some (0%Z,
                  {| world := execState endl
                                (execState (insert executable_message) w2);
                     calls := calls m ++ main_calls |})
        end
    end.
Proof.
  unfold MayDiverge.main, MayDiverge.shared_sayHello,
    MayDiverge.static_sayHello, MayDiverge.perform, MayDiverge.total.
  cbn. destruct (shared_body (world m)) as [w1|]; [|reflexivity].
  cbn. destruct (static_body w1) as [w2|]; [|reflexivity].
  cbn. unfold main_calls. rewrite <- !app_assoc. reflexivity.
Qed.

Lemma sink_main_world sg tg w :
  Ostream.sink (cout (main_world (greet sg) (greet tg) w))
  = Ostream.written (cout w) ++ greeting_line sg ++ greeting_line tg
      ++ executable_message ++ newline.
Proof.
  rewrite <- written_main_world, cout_main_world, written_flush.
  reflexivity.
Qed.

Lemma print_world w :
  execState endl (execState (insert executable_message) w)
  = {| environ := environ w;
       cout := Ostream.flush
                 (Ostream.write newline
                    (Ostream.write executable_message (cout w)));
       cerr := cerr w |}.
Proof. reflexivity. Qed.

(** ** The claims *)

(** C1: run with no arguments, the program's standard output is exactly
    three lines, in this order: the line that [HelloShared::sayHello]
    emits, the line that [HelloStatic::sayHello] emits, and the literal
    line [Hello, World from executable!]. *)
Theorem main_stdout_three_lines (sg tg : greeting) (env : environment)
    (Hs : no_newline (text sg) = true) (Ht : no_newline (text tg) = true) :
  stdout (hello_program sg tg env)
  = emitted (greet sg) ++ emitted (greet tg)
    ++ "Hello, World from executable!" ++ newline
  /\ lines (emitted (greet sg)) = [text sg]
  /\ lines (emitted (greet tg)) = [text tg]
  /\ lines (stdout (hello_program sg tg env))
     = [text sg; text tg; "Hello, World from executable!"].
Proof.
  rewrite hello_program_outcome, !emitted_greet.
  cbn [stdout]. repeat split.
  - now apply lines_one.
  - now apply lines_one.
  - unfold greeting_line. rewrite !append_assoc.
    now apply lines_three.
Qed.

Lemma main_stdout_three_lines_witness :
  no_newline (text sample_shared) = true
  /\ no_newline (text sample_static) = true
  /\ lines (stdout (hello_program sample_shared sample_static no_environment))
     = ["Hello, World from shared library!";
        "Hello, World from static library!";
        "Hello, World from executable!"].
Proof.
  split; [reflexivity|]. split; [reflexivity|].
  apply (main_stdout_three_lines sample_shared sample_static no_environment
           eq_refl eq_refl).
Defined.

(** C2: [main] performs its operations in exactly this order: construct
    the [HelloShared] instance, construct the [HelloStatic] instance,
    invoke [sayHello] on the first, invoke [sayHello] on the second, print
    the literal string, and then return 0, which the process exits with.
    The history of operations says so, and so does the world: it is the
    one the shared body leaves, then changed by the static body, then with
    the literal and a newline inserted and flushed. *)
Theorem main_operation_order (shared_body static_body : IO unit)
    (m : Machine) (env : environment) :
  let m' := execState (main shared_body static_body) m in
  let w2 := execState static_body (execState shared_body (world m)) in
  calls m'
  = (calls m ++ [EvConstruct CHelloShared; EvConstruct CHelloStatic;
                 EvSayHello CHelloShared; EvSayHello CHelloStatic;
                 EvInsert "Hello, World from executable!"; EvEndl])%list
  /\ world m'
     = {| environ := environ w2;
          cout := Ostream.flush
                    (Ostream.write newline
                       (Ostream.write "Hello, World from executable!"
                          (cout w2)));
          cerr := cerr w2 |}
  /\ Ostream.sink (cout (world m'))
     = Ostream.written (cout w2)
       ++ "Hello, World from executable!" ++ newline
  /\ Ostream.buffer (cout (world m')) = ""
  /\ evalState (main shared_body static_body) m = 0%Z
  /\ status (run_program shared_body static_body env) = 0%Z.
Proof.
  cbv zeta. rewrite exec_main. cbn [world calls].
  unfold main_world. rewrite print_world. cbn [cout].
  split; [reflexivity|]. split; [reflexivity|]. split.
  - rewrite sink_flush, !written_write. now rewrite append_assoc.
  - split; [reflexivity|]. split.
    + unfold evalState. now rewrite run_main.
    + unfold run_program. now rewrite run_main.
Qed.

(** C3: every run of the program exits with code 0: [main] returns 0 from
    every state it can be started in, and the status of every run is 0,
    the status of a successful exit. *)
Theorem exit_code_always_zero (shared_body static_body : IO unit) :
  (forall m, evalState (main shared_body static_body) m = 0%Z)
  /\ (forall env, status (run_program shared_body static_body env) = 0%Z)
  /\ exit_status 0 = 0%Z.
Proof.
  repeat split.
  - intros m. unfold evalState. now rewrite run_main.
  - intros env. unfold run_program. now rewrite run_main.
Qed.

(** C4: constructing objects of either greeter class, any number of times
    and in any order, changes nothing in the world (in particular it
    writes nothing); the world changes only when [sayHello] is invoked on
    an instance, and then by what that operation does. *)
Theorem construction_has_no_effect (cs : list class_id) (body : IO unit)
    (m : Machine) :
  world (execState (construct_all cs) m) = world m
  /\ calls (execState (construct_all cs) m)
     = (calls m ++ map EvConstruct cs)%list
  /\ List.length (evalState (construct_all cs) m) = List.length cs
  /\ world (execState (construct_all cs ;;
                       o <- HelloShared.ctor ;;
                       HelloShared.sayHello body o) m)
     = execState body (world m)
  /\ world (execState (construct_all cs ;;
                       o <- HelloStatic.ctor ;;
                       HelloStatic.sayHello body o) m)
     = execState body (world m).
Proof.
  split; [apply construct_all_world|].
  split; [apply construct_all_calls|].
  split; [apply construct_all_length|].
  pose proof (construct_all_world cs m) as E.
  split.
  - rewrite exec_bind, exec_bind, exec_shared_sayHello, exec_shared_ctor.
    cbn [world]. now rewrite E.
  - rewrite exec_bind, exec_bind, exec_static_sayHello, exec_static_ctor.
    cbn [world]. now rewrite E.
Qed.

(** C5: invoking [sayHello] twice on the same instance produces the same
    line both times; the second invocation starts from no state that the
    first one accumulated, and nothing else in the world changes. *)
Theorem sayHello_twice_same_line (g : greeting)
    (a : HelloShared.t) (b : HelloStatic.t) (m : Machine) :
  let m1 := execState (HelloShared.sayHello (greet g) a) m in
  let m2 := execState (HelloShared.sayHello (greet g) a) m1 in
  let n1 := execState (HelloStatic.sayHello (greet g) b) m in
  let n2 := execState (HelloStatic.sayHello (greet g) b) n1 in
  (Ostream.written (cout (world m1))
   = Ostream.written (cout (world m)) ++ greeting_line g
   /\ Ostream.written (cout (world m2))
      = Ostream.written (cout (world m1)) ++ greeting_line g
   /\ execState (HelloShared.sayHello (greet g) a ;;
                 HelloShared.sayHello (greet g) a) m = m2
   /\ environ (world m2) = environ (world m)
   /\ cerr (world m2) = cerr (world m))
  /\ (Ostream.written (cout (world n1))
      = Ostream.written (cout (world m)) ++ greeting_line g
      /\ Ostream.written (cout (world n2))
         = Ostream.written (cout (world n1)) ++ greeting_line g
      /\ execState (HelloStatic.sayHello (greet g) b ;;
                    HelloStatic.sayHello (greet g) b) m = n2
      /\ environ (world n2) = environ (world m)
      /\ cerr (world n2) = cerr (world m)).
Proof.
  cbv zeta. rewrite !exec_bind, !exec_shared_sayHello, !exec_static_sayHello.
  cbn [world]. rewrite !exec_greet. cbn [cout cerr environ].
  rewrite !written_emit. repeat split.
Qed.

(** C6: standard output is deterministic: any two runs, whatever the
    arguments and environment variables they are started with, produce the
    same bytes on standard output (the three lines) and the same status. *)
Theorem stdout_deterministic (sg tg : greeting) (env1 env2 : environment) :
  hello_program sg tg env1 = hello_program sg tg env2
  /\ stdout (hello_program sg tg env2) = stdout (hello_program sg tg env1)
  /\ stdout (hello_program sg tg env1)
     = greeting_line sg ++ greeting_line tg
       ++ "Hello, World from executable!" ++ newline.
Proof.
  rewrite !hello_program_outcome. repeat split.
Qed.

(** C7: [HelloShared] and [HelloStatic] have the same contract and
    behaviour: each is default-constructible and declares exactly one
    operation, [sayHello], with no parameters and no result, whose only
    observable effect is to write its fixed greeting to standard output;
    given the same greeting the two operations act identically. *)
Theorem greeters_same_contract (sg tg g : greeting) :
  greeter_contract HelloShared.ctor (HelloShared.sayHello (greet sg))
    (greeting_line sg)
  /\ greeter_contract HelloStatic.ctor (HelloStatic.sayHello (greet tg))
       (greeting_line tg)
  /\ methods HelloShared_decl = [mkMethod "sayHello" [] TVoid]
  /\ methods HelloStatic_decl = methods HelloShared_decl
  /\ In DefaultedCtor (special_members HelloShared_decl)
  /\ In DefaultedCtor (special_members HelloStatic_decl)
  /\ (forall a b m,
        world (execState (HelloShared.sayHello (greet g) a) m)
        = world (execState (HelloStatic.sayHello (greet g) b) m)).
Proof.
  split; [|split].
  - constructor; intros.
    + reflexivity.
    + rewrite exec_shared_sayHello. cbn [world]. rewrite exec_greet.
      apply written_emit.
    + rewrite exec_shared_sayHello. cbn [world]. now rewrite exec_greet.
  - constructor; intros.
    + reflexivity.
    + rewrite exec_static_sayHello. cbn [world]. rewrite exec_greet.
      apply written_emit.
    + rewrite exec_static_sayHello. cbn [world]. now rewrite exec_greet.
  - repeat split; try (cbn; tauto).
    intros a b m. now rewrite exec_shared_sayHello, exec_static_sayHello.
Qed.

(** C8: every operation is total and the program terminates.  [main] is
    one linear sequence of operations, each performed once: two
    constructions, two [sayHello] invocations and one print (with its
    [std::endl]).  Over bodies that may not return, [main] returns exactly
    when the shared body returns and then the static body returns, and
    then it returns 0 from the world those two left, with the literal line
    printed; nothing else can keep it from returning.  With bodies that
    always return it is the [main] above, and with the bodies the spec
    gives it returns from every state. *)
Theorem main_terminates_linear (shared_body static_body : partial_body)
    (body1 body2 : IO unit) (sg tg : greeting) (m : Machine) :
  runStateT (MayDiverge.main shared_body static_body) m
  = match shared_body (world m) with
    | None => None
    | Some w1 =>
        match static_body w1 with
        | None => None
        | Some w2 =>
            Some (0%Z,
                  {| world :=
                       {| environ := environ w2;
                          cout := Ostream.flush
                                    (Ostream.write newline
                                       (Ostream.write
                                          "Hello, World from executable!"
                                          (cout w2)));
                          cerr := cerr w2 |};
                     calls :=
                       calls m
                       ++ [EvConstruct CHelloShared; EvConstruct CHelloStatic;
                           EvSayHello CHelloShared; EvSayHello CHelloStatic;
                           EvInsert "Hello, World from executable!";
                           EvEndl] |})
        end
    end
  /\ runStateT (MayDiverge.main (returning body1) (returning body2)) m
     = Some (runState (main body1 body2) m)
  /\ (exists m',
        runStateT
          (MayDiverge.main (returning (greet sg)) (returning (greet tg))) m
        = Some (0%Z, m')
        /\ Ostream.sink (cout (world m'))
           = Ostream.written (cout (world m))
             ++ greeting_line sg ++ greeting_line tg
             ++ "Hello, World from executable!" ++ newline
        /\ Ostream.buffer (cout (world m')) = "")
  /\ count is_construct main_calls = 2
  /\ count is_sayHello main_calls = 2
  /\ count is_print main_calls = 1
  /\ List.length main_calls = 6.
Proof.
  split; [|split; [|split]].
  - rewrite run_partial_main.
    destruct (shared_body (world m)) as [w1|]; [|reflexivity].
    destruct (static_body w1) as [w2|]; [|reflexivity].
    now rewrite print_world.
  - rewrite run_partial_main, run_main. reflexivity.
  - eexists. rewrite run_partial_main. unfold returning.
    split; [reflexivity|]. cbn [world].
    change (execState endl
              (execState (insert executable_message)
                 (execState (greet tg) (execState (greet sg) (world m)))))
      with (main_world (greet sg) (greet tg) (world m)).
    split; [|reflexivity].
    apply sink_main_world.
  - repeat split.
Qed.

(** C9: [main] writes its own message through [std::endl]: the last line
    of output is the message ended by a newline character, and when [main]
    returns nothing is left in the buffer of standard output. *)
Theorem main_endl_flushes (shared_body static_body : IO unit) (m : Machine) :
  let m' := execState (main shared_body static_body) m in
  let w2 := execState static_body (execState shared_body (world m)) in
  Ostream.buffer (cout (world m')) = ""
  /\ Ostream.sink (cout (world m'))
     = Ostream.written (cout w2)
       ++ "Hello, World from executable!" ++ newline
  /\ List.last (calls m') (EvInsert "") = EvEndl.
Proof.
  cbv zeta. rewrite exec_main. cbn [world calls].
  rewrite cout_main_world.
  split; [reflexivity|]. split.
  - rewrite sink_flush, !written_write. now rewrite append_assoc.
  - change main_calls
      with ([EvConstruct CHelloShared; EvConstruct CHelloStatic;
             EvSayHello CHelloShared; EvSayHello CHelloStatic;
             EvInsert executable_message] ++ [EvEndl])%list.
    rewrite app_assoc. apply last_last.
Qed.

(** C10: neither class has a data member, so two instances of the same
    class are indistinguishable, and [sayHello] behaves the same on every
    instance it is invoked on. *)
Theorem instances_indistinguishable (g : greeting) (body : IO unit) :
  data_members HelloShared_decl = []
  /\ data_members HelloStatic_decl = []
  /\ (forall a b : HelloShared.t, a = b)
  /\ (forall a b : HelloStatic.t, a = b)
  /\ (forall (a b : HelloShared.t) m,
        runState (HelloShared.sayHello body a) m
        = runState (HelloShared.sayHello body b) m)
  /\ (forall (a b : HelloStatic.t) m,
        runState (HelloStatic.sayHello body a) m
        = runState (HelloStatic.sayHello body b) m)
  /\ (forall (a b : HelloShared.t) m,
        runState (HelloShared.sayHello (greet g) a) m
        = runState (HelloShared.sayHello (greet g) b) m)
  /\ (forall (a b : HelloStatic.t) m,
        runState (HelloStatic.sayHello (greet g) a) m
        = runState (HelloStatic.sayHello (greet g) b) m).
Proof.
  repeat split.
  - now intros [] [].
  - now intros [] [].
Qed.

(** ** Further properties of [main] *)

Lemma length_append (a b : string) :
  String.length (a ++ b) = String.length a + String.length b.
Proof.
  induction a as [|x a IH]; simpl; [reflexivity|].
  now rewrite IH.
Qed.

Lemma append_inv_tail (t : string) :
  forall a b, a ++ t = b ++ t -> a = b.
Proof.
  induction a as [|x a IH]; intros [|y b] H.
  - reflexivity.
  - apply (f_equal String.length) in H.
    change (String y b ++ t) with (String y (b ++ t)) in H.
    simpl in H. rewrite length_append in H. lia.
  - apply (f_equal String.length) in H.
    change (String x a ++ t) with (String x (a ++ t)) in H.
    simpl in H. rewrite length_append in H. lia.
  - simpl in H. injection H as Hxy Hab.
    now rewrite Hxy, (IH b Hab).
Qed.

Lemma appends_insert s : appends (insert s) s.
Proof. intros w. rewrite exec_insert. apply written_write. Qed.

Lemma run_program_stdout shared_body static_body env :
  stdout (run_program shared_body static_body env)
  = Ostream.written
      (cout (execState static_body
               (execState shared_body (fresh_world env))))
    ++ executable_message ++ newline.
Proof.
  unfold run_program. rewrite run_main. cbn [stdout world startup].
  rewrite sink_flush, cout_main_world, written_flush, !written_write.
  now rewrite append_assoc.
Qed.

(** X1: the statements of [main] itself never touch standard error or the
    environment: after [main] both are as the two [sayHello] bodies left
    them, and what a run shows on standard error is what the bodies wrote
    there. *)
Theorem main_leaves_stderr_and_environment
    (shared_body static_body : IO unit) (m : Machine) (env : environment) :
  let w2 := execState static_body (execState shared_body (world m)) in
  cerr (world (execState (main shared_body static_body) m)) = cerr w2
  /\ environ (world (execState (main shared_body static_body) m))
     = environ w2
  /\ stderr (run_program shared_body static_body env)
     = Ostream.written
         (cerr (execState static_body
                  (execState shared_body (fresh_world env)))).
Proof.
  cbv zeta. rewrite exec_main. cbn [world].
  unfold run_program. rewrite run_main. cbn [stderr world startup].
  unfold main_world. rewrite !exec_endl, !exec_insert. cbn [cerr environ].
  repeat split.
Qed.

(** X2: with the greeters as the spec gives them, what has reached the
    device when [main] returns does not depend on whether the libraries
    flush after their greeting: the final [std::endl] of [main] delivers
    whatever they left in the buffer, so the world is the same for every
    choice of the two flush flags. *)
Theorem delivered_output_independent_of_library_flush
    (t1 t2 : string) (f1 f2 f1' f2' : bool) (m : Machine) :
  world (execState (main (greet (mkGreeting t1 f1))
                      (greet (mkGreeting t2 f2))) m)
  = world (execState (main (greet (mkGreeting t1 f1'))
                        (greet (mkGreeting t2 f2'))) m).
Proof.
  rewrite !exec_main. cbn [world]. unfold main_world.
  rewrite !print_world, !exec_greet. cbn [environ cout cerr].
  f_equal. unfold emit, greeting_line. cbn [text flushes].
  unfold Ostream.flush, Ostream.write. cbn [Ostream.sink Ostream.buffer].
  destruct f1, f2, f1', f2'; cbn [Ostream.sink Ostream.buffer append];
    rewrite ?append_nil_r, ?append_assoc; reflexivity.
Qed.

(** X3: with the greeters as the spec gives them, [main] keeps everything
    that was written to standard output before it, flushed or still
    buffered: when it returns, the device holds the earlier output, then
    the shared greeting line, the static greeting line and the literal
    line, and the buffer is empty. *)
Theorem main_keeps_earlier_output (sg tg : greeting) (m : Machine) :
  let m' := execState (main (greet sg) (greet tg)) m in
  Ostream.sink (cout (world m'))
  = Ostream.written (cout (world m))
    ++ greeting_line sg ++ greeting_line tg
    ++ "Hello, World from executable!" ++ newline
  /\ Ostream.buffer (cout (world m')) = "".
Proof.
  cbv zeta. rewrite exec_main. cbn [world].
  split; [|reflexivity].
  apply sink_main_world.
Qed.

(** X4: the order in which [main] invokes the two operations is visible
    on standard output: when the outputs of the two bodies do not commute,
    exchanging the bodies changes what a run prints. *)
Theorem sayHello_order_observable
    (shared_body static_body : IO unit) (s1 s2 : string) (env : environment)
    (H1 : appends shared_body s1) (H2 : appends static_body s2)
    (Hne : s1 ++ s2 <> s2 ++ s1) :
  stdout (run_program shared_body static_body env)
  <> stdout (run_program static_body shared_body env).
Proof.
  rewrite !run_program_stdout, H2, H1, H1, H2.
  cbn [cout fresh_world]. change (Ostream.written Ostream.empty) with "".
  cbn [append]. intros E. apply Hne.
  rewrite <- !append_assoc in E.
  exact (append_inv_tail _ _ _ (append_inv_tail _ _ _ E)).
Qed.

Lemma sayHello_order_observable_witness :
  "a" ++ "b" <> "b" ++ "a"
  /\ stdout (run_program (insert "a") (insert "b") no_environment)
     <> stdout (run_program (insert "b") (insert "a") no_environment).
Proof.
  assert (Hne : "a" ++ "b" <> "b" ++ "a") by discriminate.
  split; [exact Hne|].
  exact (sayHello_order_observable (insert "a") (insert "b") "a" "b"
           no_environment (appends_insert "a") (appends_insert "b") Hne).
Defined.
